(** * next-decorators: decorator composition and error propagation

    A shallow embedding of [src/source/index.ts].  The decorators of the
    library are higher-order functions from handlers to handlers; every
    handler is an [async] function of the request and the response.

    - JavaScript values are primitives or references into a heap of
      objects, so that object identity ("the same error instance", "the
      original response object") and in-place mutation are visible.
    - An [async] call is a heap transformer that settles in one of three
      ways: it returns a value, it throws a value, or it stays pending
      for ever (a promise that nobody resolves).
    - A continuation-style callback may call its continuation after its
      own call has come back: such a callback hands back the turns of
      the event loop it has arranged, and awaiting a promise runs them.
    - Numbers are integers; promise-valued data (a thenable handed to
      [next], say) is outside the value universe: asynchrony lives in
      the settlement of a call, not in the values. *)

From stdpp Require Import base option list strings numbers.

Open Scope string_scope.
Open Scope list_scope.

(** ** Values and the heap *)

Abbreviation loc := nat (only parsing).

Inductive value : Type :=
| VUndefined
| VNull
| VBool (b : bool)
| VNum (n : Z)
| VStr (s : string)
| VRef (l : loc).

Abbreviation props := (list (string * value)) (only parsing).

(** State of a promise. *)
Inductive pstate : Type :=
| PPending
| PFulfilled (v : value)
| PRejected (e : value).

(** Heap objects.  [Obj chain ps] is an ordinary object: [chain] lists the
    names of the constructors on its prototype chain (most derived
    first), [ps] its own properties in insertion order.  [Arr] is an
    array.  [Res] is the framework's response object, see below.  [Prom]
    is a promise. *)
Inductive obj : Type :=
| Obj (chain : list string) (ps : props)
| Arr (elems : list value)
| Res (statusCode : value) (sent : list value)
| Prom (st : pstate).

Abbreviation heap := (list obj) (only parsing).

(** ** Settlement of a call and the monad of heap transformers *)

Inductive outcome (A : Type) : Type :=
| Returned (a : A)
| Thrown (e : value)
| Pending.

Arguments Returned {A} a.
Arguments Thrown {A} e.
Arguments Pending {A}.

Definition M (A : Type) : Type := heap -> outcome A * heap.

Definition ret {A} (a : A) : M A := fun h => (Returned a, h).

Definition throw {A} (e : value) : M A := fun h => (Thrown e, h).

Definition bind {A B} (m : M A) (k : A -> M B) : M B :=
  fun h =>
    match m h with
    | (Returned a, h') => k a h'
    | (Thrown e, h') => (Thrown e, h')
    | (Pending, h') => (Pending, h')
    end.

Notation "'let!' x ':=' m 'in' k" := (bind m (fun x => k))
  (at level 10, x pattern, m at level 100, k at level 200).

(** [try { body } catch (e) { handler e }]: only a thrown value is caught. *)
Definition try_catch {A} (body : M A) (handler : value -> M A) : M A :=
  fun h =>
    match body h with
    | (Thrown e, h') => handler e h'
    | r => r
    end.

(** [new]: the fresh object is put at the end of the heap. *)
Definition alloc (o : obj) : M value :=
  fun h => (Returned (VRef (List.length h)), h ++ [o]).

(** ** Reading properties, truthiness, [instanceof] *)

Definition lookup_prop (k : string) (ps : props) : value :=
  match find (fun p => String.eqb (fst p) k) ps with
  | Some p => snd p
  | None => VUndefined
  end.

Fixpoint set_prop (k : string) (v : value) (ps : props) : props :=
  match ps with
  | [] => [(k, v)]
  | (k', v') :: rest =>
      if String.eqb k' k then (k, v) :: rest else (k', v') :: set_prop k v rest
  end.

Definition Error_chain : list string := ["Error"; "Object"].
Definition TypeError_chain : list string := "TypeError" :: Error_chain.

(** The engine's own [TypeError], raised when a property of [undefined] or
    [null] is read or when something that is not a function is called. *)
Definition throw_TypeError {A} (message : string) : M A :=
  let! e := alloc (Obj TypeError_chain [("message", VStr message)]) in
  throw e.

(** The value of [v.k] when [v] is neither [undefined] nor [null].  The
    primitives have none of the properties this code reads ([method],
    [query], [body], [statusCode], [errors], [status]); a response
    object carries its [statusCode]. *)
Definition read_prop (h : heap) (v : value) (k : string) : value :=
  match v with
  | VRef l =>
      match h !! l with
      | Some (Obj _ ps) => lookup_prop k ps
      | Some (Res sc _) => if String.eqb k "statusCode" then sc else VUndefined
      | _ => VUndefined
      end
  | _ => VUndefined
  end.

Definition nullish (v : value) : bool :=
  match v with
  | VUndefined | VNull => true
  | _ => false
  end.

(** [v.k]: reading a property of [undefined] or [null] throws. *)
Definition get_prop (v : value) (k : string) : M value :=
  if nullish v
  then throw_TypeError (String.append "Cannot read properties of undefined or null: " k)
  else fun h => (Returned (read_prop h v k), h).

(** ToBoolean. *)
Definition truthy (v : value) : bool :=
  match v with
  | VUndefined | VNull => false
  | VBool b => b
  | VNum n => negb (Z.eqb n 0)
  | VStr s => negb (String.eqb s "")
  | VRef _ => true
  end.

(** [a !== b]. *)
Definition strict_neq (a b : value) : bool :=
  match a, b with
  | VUndefined, VUndefined => false
  | VNull, VNull => false
  | VBool x, VBool y => negb (Bool.eqb x y)
  | VNum x, VNum y => negb (Z.eqb x y)
  | VStr x, VStr y => negb (String.eqb x y)
  | VRef x, VRef y => negb (Nat.eqb x y)
  | _, _ => true
  end.

(** [v instanceof Error]. *)
Definition instanceof_Error (h : heap) (v : value) : bool :=
  match v with
  | VRef l =>
      match h !! l with
      | Some (Obj chain _) => existsb (String.eqb "Error") chain
      | _ => false
      end
  | _ => false
  end.

(** ** Error model (index.ts, lines 16-59)

    Each constructor is written as the assignments it performs on [this],
    in the order of the source; [new_X] allocates the finished instance.
    A parameter with a default value is an [option]: [None] is the
    omitted (or [undefined]) argument. *)

Definition BaseError_chain : list string := "BaseError" :: Error_chain.
Definition MethodNotAllowedError_chain : list string :=
  "MethodNotAllowedError" :: BaseError_chain.
Definition BadRequestError_chain : list string :=
  "BadRequestError" :: BaseError_chain.
Definition ServerInternalError_chain : list string :=
  "ServerInternalError" :: BaseError_chain.

(** [Error(message)]: the built-in constructor stores the message. *)
Definition Error_ctor (message : string) (this : props) : props :=
  set_prop "message" (VStr message) this.

Definition BaseError_ctor (message : string) (this : props) : props :=
  let this := Error_ctor message this in
  let this := set_prop "name" (VStr "BaseError") this in
  let this := set_prop "statusCode" (VNum 500) this in
  set_prop "message" (VStr message) this.

Definition MethodNotAllowedError_ctor (message : option string) (this : props) : props :=
  let message := default "Method not allowed" message in
  let this := BaseError_ctor message this in
  let this := set_prop "name" (VStr "MethodNotAllowedError") this in
  let this := set_prop "message" (VStr message) this in
  set_prop "statusCode" (VNum 405) this.

Definition BadRequestError_ctor (message : option string) (errors : value)
    (this : props) : props :=
  let message := default "Bad Request" message in
  let this := BaseError_ctor message this in
  let this := set_prop "name" (VStr "BadRequestError") this in
  let this := set_prop "message" (VStr message) this in
  let this := set_prop "errors" errors this in
  set_prop "statusCode" (VNum 400) this.

(** [addition] is the array built from the rest parameter. *)
Definition ServerInternalError_ctor (message : option string) (addition : value)
    (this : props) : props :=
  let message := default "Server Internal Error" message in
  let this := BaseError_ctor message this in
  let this := set_prop "name" (VStr "ServerInternalError") this in
  let this := set_prop "message" (VStr message) this in
  let this := set_prop "addition" addition this in
  set_prop "statusCode" (VNum 500) this.

Definition new_BaseError (message : string) : M value :=
  alloc (Obj BaseError_chain (BaseError_ctor message [])).

Definition new_MethodNotAllowedError (message : option string) : M value :=
  alloc (Obj MethodNotAllowedError_chain (MethodNotAllowedError_ctor message [])).

Definition new_BadRequestError (message : option string) (errors : value) : M value :=
  alloc (Obj BadRequestError_chain (BadRequestError_ctor message errors [])).

(** [new ServerInternalError(message, ...addition)]: the rest parameter is
    collected into a fresh array before the constructor body runs. *)
Definition new_ServerInternalError (message : option string) (addition : list value)
    : M value :=
  let! rest := alloc (Arr addition) in
  alloc (Obj ServerInternalError_chain (ServerInternalError_ctor message rest [])).

(** ** The framework's response object

    The response belongs to the web framework, not to this library; the
    source calls two of its methods.  [status(code)] records the status
    code and returns the response, [json(body)] records the body that is
    handed over to be serialized and sent, and returns nothing.  Calling
    either on a value that is not a response object is a [TypeError].
    The serialization itself is the framework's: a body that it cannot
    serialize is not told apart here, every body handed to a response
    object counts as sent. *)

Definition res_status (res code : value) : M value :=
  fun h =>
    match res with
    | VRef l =>
        match h !! l with
        | Some (Res _ sent) => (Returned res, <[l := Res code sent]> h)
        | _ => throw_TypeError "res.status is not a function" h
        end
    | _ => throw_TypeError "res.status is not a function" h
    end.

Definition res_json (res body : value) : M value :=
  fun h =>
    match res with
    | VRef l =>
        match h !! l with
        | Some (Res sc sent) => (Returned VUndefined, <[l := Res sc (sent ++ [body])]> h)
        | _ => throw_TypeError "res.json is not a function" h
        end
    | _ => throw_TypeError "res.json is not a function" h
    end.

(** ** Handlers and the controller class *)

(** [(req, res) => ...], awaited. *)
Definition fn2 := value -> value -> M value.

(** [(error, req, res) => ...], awaited. *)
Definition fn3 := value -> value -> value -> M value.

(** The controller's constructor, [t.constructor]: it holds the error
    handler once [ErrorHandler] has decorated a method of the class. *)
Record controller : Type := { errorHandler : option fn3 }.

Definition no_errorHandler : controller := {| errorHandler := None |}.

(** [t.constructor.errorHandler(a, b, c)], awaited. *)
Definition call_errorHandler (t_constructor : controller) (a b c : value) : M value :=
  match errorHandler t_constructor with
  | Some f => f a b c
  | None => throw_TypeError "t.constructor.errorHandler is not a function"
  end.

(** index.ts, lines 61-71.  In [res.status(...)] the callee is read from
    [res] before the argument is evaluated. *)
Definition ErrorHandler (handler : fn3) (t_constructor : controller) : controller :=
  {| errorHandler := Some (fun error req res =>
       let! _ := get_prop res "status" in
       let! sc := get_prop error "statusCode" in
       let! code := (if truthy sc then get_prop error "statusCode" else ret (VNum 500)) in
       let! _ := res_status res code in
       let! response := handler error req res in
       res_json res response) |}.

(** index.ts, lines 73-87. *)
Definition Request (t_constructor : controller) (handler : fn2) : fn2 :=
  fun req res =>
    try_catch
      (let! response := handler req res in
       res_json res response)
      (fun e => call_errorHandler t_constructor e res res).

(** ** Method guards (index.ts, lines 89-196) *)

Definition All (handler : fn2) : fn2 :=
  fun req res => handler req res.

Definition Get (handler : fn2) : fn2 :=
  fun req res =>
    let! method := get_prop req "method" in
    if strict_neq method (VStr "GET")
    then let! e := new_MethodNotAllowedError None in throw e
    else handler req res.

Definition Post (handler : fn2) : fn2 :=
  fun req res =>
    let! method := get_prop req "method" in
    if strict_neq method (VStr "POST")
    then let! e := new_MethodNotAllowedError None in throw e
    else handler req res.

Definition Delete (handler : fn2) : fn2 :=
  fun req res =>
    let! method := get_prop req "method" in
    if strict_neq method (VStr "DELETE")
    then let! e := new_MethodNotAllowedError None in throw e
    else handler req res.

Definition Head (handler : fn2) : fn2 :=
  fun req res =>
    let! method := get_prop req "method" in
    if strict_neq method (VStr "HEAD")
    then let! e := new_MethodNotAllowedError None in throw e
    else handler req res.

Definition Options (handler : fn2) : fn2 :=
  fun req res =>
    let! method := get_prop req "method" in
    if strict_neq method (VStr "OPTIONS")
    then let! e := new_MethodNotAllowedError None in throw e
    else handler req res.

Definition Put (handler : fn2) : fn2 :=
  fun req res =>
    let! method := get_prop req "method" in
    if strict_neq method (VStr "PUT")
    then let! e := new_MethodNotAllowedError None in throw e
    else handler req res.

Definition Patch (handler : fn2) : fn2 :=
  fun req res =>
    let! method := get_prop req "method" in
    if strict_neq method (VStr "PATCH")
    then let! e := new_MethodNotAllowedError None in throw e
    else handler req res.

(** The seven guards that check the method, indexed by their verb. *)
Inductive verb : Type := GET | POST | DELETE | HEAD | OPTIONS | PUT | PATCH.

Definition verb_name (V : verb) : string :=
  match V with
  | GET => "GET" | POST => "POST" | DELETE => "DELETE" | HEAD => "HEAD"
  | OPTIONS => "OPTIONS" | PUT => "PUT" | PATCH => "PATCH"
  end.

Definition guard (V : verb) : fn2 -> fn2 :=
  match V with
  | GET => Get | POST => Post | DELETE => Delete | HEAD => Head
  | OPTIONS => Options | PUT => Put | PATCH => Patch
  end.

(** ** Middleware (index.ts, lines 198-225) *)

Definition Middleware (middleware : fn2) (handler : fn2) : fn2 :=
  fun req res =>
    let! _ := middleware req res in
    handler req res.

(** The [resolve] function of the promise at [p]: the first call settles
    the promise, later calls do nothing. *)
Definition resolve_promise (p : loc) (v : value) : M value :=
  fun h =>
    match h !! p with
    | Some (Prom PPending) => (Returned VUndefined, <[p := Prom (PFulfilled v)]> h)
    | _ => (Returned VUndefined, h)
    end.

Definition reject_promise (p : loc) (e : value) : M value :=
  fun h =>
    match h !! p with
    | Some (Prom PPending) => (Returned VUndefined, <[p := Prom (PRejected e)]> h)
    | _ => (Returned VUndefined, h)
    end.

(** What a callback has arranged to happen after its call has come back
    (a timer, the completion of some I/O, the rest of an [async] body):
    a sequence of turns of the event loop.  A turn changes the heap (and
    may call the [next] it has kept); what follows it may depend on the
    heap it found. *)
Inductive later : Type :=
| Done
| Later (turn : heap -> heap) (rest : heap -> later).

(** A continuation-style callback [(req, res, next) => ...]: the call
    itself is not awaited; it comes back with a value, which is dropped,
    and with the turns it has arranged. *)
Definition fn_next := value -> value -> (value -> M value) -> M (value * later).

(** [new Promise(executor)]: the executor runs at once with the promise's
    [resolve]; if it throws, the promise is rejected with what it threw
    (unless it is settled already); what it returns is dropped.  The
    turns the executor has arranged are handed on to whoever awaits. *)
Definition new_Promise (executor : (value -> M value) -> M (value * later))
    : M (loc * later) :=
  fun h =>
    let p := List.length h in
    match executor (resolve_promise p) (h ++ [Prom PPending]) with
    | (Returned (_, k), h') => (Returned (p, k), h')
    | (Thrown e, h') => (Returned (p, Done), snd (reject_promise p e h'))
    | (Pending, h') => (Pending, h')
    end.

(** [await p]: the caller is suspended until the promise is settled.  While
    it is pending the arranged turns run, one after the other; the caller
    resumes right after the turn that settles the promise (the turns
    after that one run beside the caller and are not followed here).  A
    promise still pending when no turn is left is never settled, and the
    caller is suspended for ever. *)
Fixpoint await (p : loc) (k : later) (h : heap) : outcome value * heap :=
  match h !! p with
  | Some (Prom (PFulfilled v)) => (Returned v, h)
  | Some (Prom (PRejected e)) => (Thrown e, h)
  | _ =>
      match k with
      | Done => (Pending, h)
      | Later turn rest => await p (rest h) (turn h)
      end
  end.

Definition ExpressMiddleware (middleware : fn_next) (handler : fn2) : fn2 :=
  fun req res =>
    let! promise := new_Promise (fun resolve => middleware req res resolve) in
    let! response := await (fst promise) (snd promise) in
    fun h =>
      if instanceof_Error h response
      then throw response h
      else handler req res h.



(** Whether the promise at [p] is pending in [h] and stays so through all
    the turns of [k]: [next] is never called. *)
Fixpoint pending_throughout (p : loc) (k : later) (h : heap) : bool :=
  match h !! p with
  | Some (Prom PPending) =>
      match k with
      | Done => true
      | Later turn rest => pending_throughout p (rest h) (turn h)
      end
  | _ => false
  end.

(** The heap once all the turns of [k] have run. *)
Fixpoint after_turns (k : later) (h : heap) : heap :=
  match k with
  | Done => h
  | Later turn rest => after_turns (rest h) (turn h)
  end.

(** ** Schema validators (index.ts, lines 227-275) *)

(** The validator engine is an external library.  The source uses an
    engine through its [compile] method, which yields the validating
    function of a schema, and through its [errors] property, read from
    the engine object itself ([ajv_object] is where that object lives). *)
Record Ajv : Type := {
  ajv_object : loc;
  ajv_compile : value -> M (value -> M value)
}.

Section Validators.

(** The module-level engine [ajv] of index.ts, lines 4-10. *)
Variable ajv : Ajv.

Definition QuerySchema (schema : value) (customAjv : option Ajv) (handler : fn2) : fn2 :=
  let customAjv := default ajv customAjv in
  fun req res =>
    let! compiled := ajv_compile customAjv schema in
    let! query := get_prop req "query" in
    let! validate := compiled query in
    if negb (truthy validate)
    then
      let! errors := get_prop (VRef (ajv_object customAjv)) "errors" in
      let! e := new_BadRequestError (Some "Bad Request") errors in
      throw e
    else handler req res.

Definition BodySchema (schema : value) (customAjv : option Ajv) (handler : fn2) : fn2 :=
  let customAjv := default ajv customAjv in
  fun req res =>
    let! compiled := ajv_compile customAjv schema in
    let! body := get_prop req "body" in
    let! validate := compiled body in
    if negb (truthy validate)
    then
      let! errors := get_prop (VRef (ajv_object customAjv)) "errors" in
      let! e := new_BadRequestError (Some "Bad Request") errors in
      throw e
    else handler req res.

Definition ResponseSchema (schema : value) (customAjv : option Ajv) (handler : fn2) : fn2 :=
  let customAjv := default ajv customAjv in
  fun req res =>
    let! response := handler req res in
    let! compiled := ajv_compile customAjv schema in
    let! validate := compiled response in
    if negb (truthy validate)
    then
      let! errors := get_prop (VRef (ajv_object customAjv)) "errors" in
      let! e := new_ServerInternalError (Some "Server Internal Error") [errors] in
      throw e
    else ret response.

End Validators.

(** ** Sample controllers, requests and engines

    Concrete inputs on which the definitions above are run. *)

(** [o[k] = v] on the object at [l]. *)
Definition assign (l : loc) (k : string) (v : value) : M value :=
  fun h =>
    match h !! l with
    | Some (Obj chain ps) => (Returned v, <[l := Obj chain (set_prop k v ps)]> h)
    | _ => (Returned v, h)
    end.

Definition sample_req : value := VRef 0.
Definition sample_res : value := VRef 1.
Definition sample_engine_object : loc := 4.

(** A heap with a request of the given method at 0 (query at 2, body at
    3), a response that has not been written to at 1, and an engine
    object at 4. *)
Definition sample_heap (method : string) : heap :=
  [ Obj ["IncomingMessage"; "Object"]
        [("method", VStr method); ("query", VRef 2); ("body", VRef 3)];
    Res (VNum 200) [];
    Obj ["Object"] [("q", VStr "5")];
    Obj ["Object"] [("some", VNum 42)];
    Obj ["Ajv"; "Object"] [("errors", VNull)] ].

(** [return {some: 'answer'}]. *)
Definition answer_handler : fn2 :=
  fun req res => alloc (Obj ["Object"] [("some", VStr "answer")]).

(** [return {}]. *)
Definition empty_handler : fn2 :=
  fun req res => alloc (Obj ["Object"] []).

(** [throw new BaseError('boom')]. *)
Definition failing_handler : fn2 :=
  fun req res => let! e := new_BaseError "boom" in throw e.

(** [throw null]. *)
Definition null_handler : fn2 :=
  fun req res => throw VNull.

(** An error handler that answers with the object it received as its
    request: [errorHandler(error, req, res) { return req; }]. *)
Definition echo_req : fn3 :=
  fun error req res => ret req.

Definition echo_controller : controller := ErrorHandler echo_req no_errorHandler.

(** [(req, res) => { throw new Error('x'); }]. *)
Definition failing_middleware : fn2 :=
  fun req res =>
    let! e := alloc (Obj Error_chain [("message", VStr "x")]) in throw e.

(** [(req, res, next) => next(new Error('y'))]. *)
Definition next_error : fn_next :=
  fun req res next =>
    let! e := alloc (Obj Error_chain [("message", VStr "y")]) in
    let! _ := next e in
    ret (VUndefined, Done).

(** [(req, res, next) => next()]. *)
Definition next_undefined : fn_next :=
  fun req res next => let! _ := next VUndefined in ret (VUndefined, Done).


(** [(req, res, next) => { setTimeout(() => next(), 0); }]. *)
Definition next_undefined_later : fn_next :=
  fun req res next =>
    ret (VUndefined, Later (fun h => snd (next VUndefined h)) (fun _ => Done)).

(** An engine that accepts every datum and leaves it alone. *)
Definition accepting_validate : value -> M value :=
  fun data => ret (VBool true).

Definition accepting_engine : Ajv :=
  {| ajv_object := sample_engine_object;
     ajv_compile := fun schema => ret accepting_validate |}.

(** A caller's own engine that rejects every datum and publishes a
    one-element error list in the [errors] property of the engine
    object.  (The library's engine does not do so through [compile], see
    [library_engine] below.) *)
Definition rejecting_validate : value -> M value :=
  fun data =>
    let! report := alloc (Obj ["Object"] [("keyword", VStr "required")]) in
    let! list := alloc (Arr [report]) in
    let! _ := assign sample_engine_object "errors" list in
    ret (VBool false).

Definition rejecting_engine : Ajv :=
  {| ajv_object := sample_engine_object;
     ajv_compile := fun schema => ret rejecting_validate |}.

(** An engine that applies a schema default: its validating function
    writes [ok: true] into the datum it is given and accepts it. *)
Definition defaulting_validate : value -> M value :=
  fun data =>
    match data with
    | VRef l => let! _ := assign l "ok" (VBool true) in ret (VBool true)
    | _ => ret (VBool true)
    end.

Definition defaulting_engine : Ajv :=
  {| ajv_object := sample_engine_object;
     ajv_compile := fun schema => ret defaulting_validate |}.

(** The heap that [rejecting_validate] leaves when run on [h]: the report
    and the error list are new, the engine's [errors] points to the list. *)
Definition rejected (h : heap) : heap :=
  <[sample_engine_object :=
      Obj ["Ajv"; "Object"] [("errors", VRef (S (List.length h)))]]> h
  ++ [Obj ["Object"] [("keyword", VStr "required")]; Arr [VRef (List.length h)]].

(** A heap whose request (at 0) has no [method] at all, with a response
    that has not been written to at 1. *)
Definition bare_heap : heap :=
  [ Obj ["IncomingMessage"; "Object"] []; Res (VNum 200) [] ].

(** [(req, res, next) => { throw new Error('z'); }]: fails before it
    calls [next]. *)
Definition throwing_next : fn_next :=
  fun req res next =>
    let! e := alloc (Obj Error_chain [("message", VStr "z")]) in throw e.

(** [(req, res, next) => {}]: comes back without calling [next]. *)
Definition silent_next : fn_next :=
  fun req res next => ret (VUndefined, Done).

(** [(req, res, next) => { setTimeout(() => {}, 0); }]: a later turn, in
    which [next] is not called either. *)
Definition idle_next : fn_next :=
  fun req res next => ret (VUndefined, Later (fun h => h) (fun _ => Done)).

(** An error handler that fails itself:
    [errorHandler(error, req, res) { throw new Error('handler'); }]. *)
Definition failing_errorHandler : fn3 :=
  fun error req res =>
    let! e := alloc (Obj Error_chain [("message", VStr "handler")]) in throw e.

(** An engine whose [compile] refuses every schema. *)
Definition refusing_engine : Ajv :=
  {| ajv_object := sample_engine_object;
     ajv_compile := fun schema =>
       let! e := alloc (Obj Error_chain [("message", VStr "schema is invalid")]) in
       throw e |}.

(** [(req, res, next) => { next(v); next(w); }]. *)
Definition next_twice (v w : value) : fn_next :=
  fun req res next =>
    let! _ := next v in
    let! _ := next w in
    ret (VUndefined, Done).

(** [(req, res, next) => next(v)]. *)
Definition next_once (v : value) : fn_next :=
  fun req res next => let! _ := next v in ret (VUndefined, Done).


(** The two validators of the request, indexed by the part they check. *)
Inductive request_part : Type := QUERY | BODY.

Definition part_name (P : request_part) : string :=
  match P with
  | QUERY => "query"
  | BODY => "body"
  end.

Definition request_schema (ajv : Ajv) (P : request_part)
    : value -> option Ajv -> fn2 -> fn2 :=
  match P with
  | QUERY => QuerySchema ajv
  | BODY => BodySchema ajv
  end.

(** An engine that behaves towards [compile] as the validation library
    does (version 6, the one that knows the options of index.ts, lines
    4-10): the validating function that [compile] returns is an object
    of its own and keeps the errors of its last run in its own [errors]
    property; the [errors] property of the engine object is written by
    the engine's [validate] method only, which the source never calls,
    so it stays as it is.  Of the schema, the [required] keyword is
    interpreted: every listed name must be a property of the datum, and
    every missing one is reported. *)
Definition has_own (h : heap) (data : value) (k : string) : bool :=
  match data with
  | VRef l =>
      match h !! l with
      | Some (Obj _ ps) => existsb (fun p => String.eqb (fst p) k) ps
      | _ => false
      end
  | _ => false
  end.

Definition required_keys (h : heap) (schema : value) : list string :=
  match read_prop h schema "required" with
  | VRef a =>
      match h !! a with
      | Some (Arr names) =>
          omap (fun v => match v with VStr k => Some k | _ => None end) names
      | _ => []
      end
  | _ => []
  end.

Definition missing_report (k : string) : obj :=
  Obj ["Object"] [("keyword", VStr "required"); ("missingProperty", VStr k)].

Fixpoint report_missing (missing : list string) : M (list value) :=
  match missing with
  | [] => ret []
  | k :: rest =>
      let! report := alloc (missing_report k) in
      let! reports := report_missing rest in
      ret (report :: reports)
  end.

Definition library_validate (fn : loc) (required : list string) : value -> M value :=
  fun data h =>
    match List.filter (fun k => negb (has_own h data k)) required with
    | [] =>
        (let! _ := assign fn "errors" VNull in ret (VBool true)) h
    | missing =>
        (let! reports := report_missing missing in
         let! list := alloc (Arr reports) in
         let! _ := assign fn "errors" list in
         ret (VBool false)) h
    end.

Definition library_compile (schema : value) : M (value -> M value) :=
  fun h =>
    (Returned (library_validate (List.length h) (required_keys h schema)),
     h ++ [Obj ["Function"; "Object"] [("errors", VNull)]]).

Definition library_engine : Ajv :=
  {| ajv_object := sample_engine_object; ajv_compile := library_compile |}.

(** The sample heap of a GET request, with the schema
    [{type: 'object', required: ['ok']}] at 6 (its [required] array at 5). *)
Definition schema_heap : heap :=
  sample_heap "GET" ++
    [ Arr [VStr "ok"];
      Obj ["Object"] [("type", VStr "object"); ("required", VRef 5)] ].

Definition sample_schema : value := VRef 6.

(** The heap that [library_engine] leaves when it compiles a schema on
    [h] and its validating function then finds the one property [k]
    missing: the validating function (with its error list), the report
    and the list are new; nothing that was in [h] has changed. *)
Definition refused (h : heap) (k : string) : heap :=
  h ++ [ Obj ["Function"; "Object"] [("errors", VRef (S (S (List.length h))))];
         missing_report k;
         Arr [VRef (S (List.length h))] ].

(** The instances that the constructors build, written out. *)
Definition MethodNotAllowed_instance : obj :=
  Obj MethodNotAllowedError_chain
      [("message", VStr "Method not allowed");
       ("name", VStr "MethodNotAllowedError");
       ("statusCode", VNum 405)].

Definition BadRequest_instance (message : string) (errors : value) : obj :=
  Obj BadRequestError_chain
      [("message", VStr message);
       ("name", VStr "BadRequestError");
       ("statusCode", VNum 400);
       ("errors", errors)].

Definition ServerInternal_instance (message : string) (addition : value) : obj :=
  Obj ServerInternalError_chain
      [("message", VStr message);
       ("name", VStr "ServerInternalError");
       ("statusCode", VNum 500);
       ("addition", addition)].

Definition BaseError_instance (message : string) : obj :=
  Obj BaseError_chain
      [("message", VStr message);
       ("name", VStr "BaseError");
       ("statusCode", VNum 500)].

(** * Properties *)

(** ** Basic facts about the heap and the monad *)

Lemma lookup_alloc (h : heap) (o : obj) : (h ++ [o]) !! List.length h = Some o.
Proof. by apply list_lookup_middle. Qed.

Lemma lookup_alloc2 (h : heap) (a o : obj) : (h ++ [a; o]) !! S (List.length h) = Some o.
Proof.
  replace (S (List.length h)) with (List.length (h ++ [a]))
    by (rewrite length_app; simpl; lia).
  rewrite (app_assoc h [a] [o] : h ++ [a; o] = _). apply lookup_alloc.
Qed.

Lemma alloc_run (o : obj) (h : heap) :
  alloc o h = (Returned (VRef (List.length h)), h ++ [o]).
Proof. reflexivity. Qed.

Lemma get_prop_object (h : heap) (l : loc) (chain : list string) (ps : props) (k : string) :
  h !! l = Some (Obj chain ps) ->
  get_prop (VRef l) k h = (Returned (lookup_prop k ps), h).
Proof. intros Hl. unfold get_prop, read_prop. simpl. by rewrite Hl. Qed.

Lemma get_prop_defined (h : heap) (v : value) (k : string) :
  nullish v = false ->
  get_prop v k h = (Returned (read_prop h v k), h).
Proof. intros Hv. unfold get_prop. by rewrite Hv. Qed.

(** The seven checking guards are one function of the verb. *)
Lemma guard_unfold (V : verb) (handler : fn2) (req res : value) :
  guard V handler req res =
  (let! method := get_prop req "method" in
   if strict_neq method (VStr (verb_name V))
   then let! e := new_MethodNotAllowedError None in throw e
   else handler req res).
Proof. by destruct V. Qed.

Lemma guard_reject (V : verb) (handler : fn2) (l : loc) (res : value) (h : heap)
    (chain : list string) (ps : props) (m : string) :
  h !! l = Some (Obj chain ps) ->
  lookup_prop "method" ps = VStr m ->
  String.eqb m (verb_name V) = false ->
  guard V handler (VRef l) res h =
    (Thrown (VRef (List.length h)), h ++ [MethodNotAllowed_instance]).
Proof.
  intros Hl Hm Hne. rewrite guard_unfold. unfold bind.
  rewrite (get_prop_object h l chain ps) by done.
  rewrite Hm. simpl. by rewrite Hne.
Qed.

(** ** Method guards *)

(** C2: a guard for verb [V], run on a request whose [method] is a string
    other than [V]'s (compared character by character), throws a fresh
    [MethodNotAllowedError] whose [statusCode] is 405; the outcome is the
    same for every inner handler, so the handler is not invoked, and the
    heap is the initial one extended by the error instance alone. *)
Theorem guard_rejects_other_methods (V : verb) (l : loc) (res : value) (h : heap)
    (chain : list string) (ps : props) (m : string) :
  h !! l = Some (Obj chain ps) ->
  lookup_prop "method" ps = VStr m ->
  String.eqb m (verb_name V) = false ->
  exists e h',
    (forall handler : fn2, guard V handler (VRef l) res h = (Thrown e, h')) /\
    h' = h ++ [MethodNotAllowed_instance] /\
    e = VRef (List.length h) /\
    h' !! List.length h =
      Some (Obj ("MethodNotAllowedError" :: BaseError_chain)
                [("message", VStr "Method not allowed");
                 ("name", VStr "MethodNotAllowedError");
                 ("statusCode", VNum 405)]) /\
    read_prop h' e "statusCode" = VNum 405.
Proof.
  intros Hl Hm Hne.
  exists (VRef (List.length h)), (h ++ [MethodNotAllowed_instance]).
  split; [| split; [done | split; [done | split]]].
  - intros handler. by eapply guard_reject.
  - apply lookup_alloc.
  - unfold read_prop. by rewrite lookup_alloc.
Qed.

Lemma guard_rejects_other_methods_witness :
  exists e h',
    (forall handler : fn2,
        guard GET handler sample_req sample_res (sample_heap "get") = (Thrown e, h')) /\
    h' = sample_heap "get" ++ [MethodNotAllowed_instance] /\
    e = VRef 5 /\
    h' !! 5 =
      Some (Obj ("MethodNotAllowedError" :: BaseError_chain)
                [("message", VStr "Method not allowed");
                 ("name", VStr "MethodNotAllowedError");
                 ("statusCode", VNum 405)]) /\
    read_prop h' e "statusCode" = VNum 405.
Proof.
  apply (guard_rejects_other_methods GET 0 sample_res (sample_heap "get")
           ["IncomingMessage"; "Object"]
           [("method", VStr "get"); ("query", VRef 2); ("body", VRef 3)] "get");
    reflexivity.
Defined.

(** C3: a guard for verb [V], run on a request whose [method] is [V]'s,
    is the inner handler run on the same request and response from the
    same heap: same outcome, same final heap.  [All] is the inner handler
    on every request, whatever its method. *)
Theorem guard_delegates_on_match (V : verb) (handler : fn2) (l : loc) (res : value)
    (h : heap) (chain : list string) (ps : props) :
  h !! l = Some (Obj chain ps) ->
  lookup_prop "method" ps = VStr (verb_name V) ->
  guard V handler (VRef l) res h = handler (VRef l) res h /\
  (forall (handler' : fn2) (req' res' : value) (h' : heap),
      All handler' req' res' h' = handler' req' res' h').
Proof.
  intros Hl Hm. split; [| done].
  rewrite guard_unfold. unfold bind.
  rewrite (get_prop_object h l chain ps) by done.
  rewrite Hm. simpl. by rewrite String.eqb_refl.
Qed.

Lemma guard_delegates_on_match_witness :
  guard POST answer_handler sample_req sample_res (sample_heap "POST") =
    answer_handler sample_req sample_res (sample_heap "POST") /\
  (forall (handler' : fn2) (req' res' : value) (h' : heap),
      All handler' req' res' h' = handler' req' res' h').
Proof.
  apply (guard_delegates_on_match POST answer_handler 0 sample_res (sample_heap "POST")
           ["IncomingMessage"; "Object"]
           [("method", VStr "POST"); ("query", VRef 2); ("body", VRef 3)]);
    reflexivity.
Defined.

(** ** Middleware *)

(** C5: [Middleware] runs the callback to its settlement first.  If the
    callback throws [e], the wrapper throws the same [e] from the heap
    the callback left, whatever the inner handler is; if the callback
    returns, the wrapper is the inner handler run on the same request
    and response from the heap the callback left; if the callback never
    settles, neither does the wrapper. *)
Theorem Middleware_runs_callback_first (middleware : fn2) (req res : value)
    (h h1 : heap) (o : outcome value) :
  middleware req res h = (o, h1) ->
  match o with
  | Thrown e =>
      forall handler : fn2, Middleware middleware handler req res h = (Thrown e, h1)
  | Returned _ =>
      forall handler : fn2, Middleware middleware handler req res h = handler req res h1
  | Pending =>
      forall handler : fn2, Middleware middleware handler req res h = (Pending, h1)
  end.
Proof.
  intros Hm. destruct o; intros handler; unfold Middleware, bind; by rewrite Hm.
Qed.

Lemma Middleware_runs_callback_first_witness :
  Middleware failing_middleware answer_handler sample_req sample_res (sample_heap "GET") =
    (Thrown (VRef 5),
     sample_heap "GET" ++ [Obj Error_chain [("message", VStr "x")]]).
Proof.
  apply (Middleware_runs_callback_first failing_middleware sample_req sample_res
           (sample_heap "GET")
           (sample_heap "GET" ++ [Obj Error_chain [("message", VStr "x")]])
           (Thrown (VRef 5))).
  reflexivity.
Defined.

(** The first call of [resolve] fulfils a pending promise with its argument. *)
Lemma resolve_promise_pending (p : loc) (v : value) (h : heap) :
  h !! p = Some (Prom PPending) ->
  exists h', resolve_promise p v h = (Returned VUndefined, h') /\
             h' !! p = Some (Prom (PFulfilled v)).
Proof.
  intros Hp. unfold resolve_promise. rewrite Hp. eexists. split; [done |].
  apply list_lookup_insert_eq. by eapply lookup_lt_Some.
Qed.

(** A later call leaves a fulfilled promise as it is. *)
Lemma resolve_promise_settled (p : loc) (v w : value) (h : heap) :
  h !! p = Some (Prom (PFulfilled v)) ->
  resolve_promise p w h = (Returned VUndefined, h).
Proof. intros Hp. unfold resolve_promise. by rewrite Hp. Qed.




(** The callbacks of the specification's examples, run: [next] called
    during the call, and [next] called in a later turn. *)
Example ExpressMiddleware_next_error (handler : fn2) :
  ExpressMiddleware next_error handler sample_req sample_res (sample_heap "GET") =
    (Thrown (VRef 6),
     sample_heap "GET" ++
       [Prom (PFulfilled (VRef 6)); Obj Error_chain [("message", VStr "y")]]).
Proof. reflexivity. Qed.

Example ExpressMiddleware_next_undefined (handler : fn2) :
  ExpressMiddleware next_undefined handler sample_req sample_res (sample_heap "GET") =
    handler sample_req sample_res (sample_heap "GET" ++ [Prom (PFulfilled VUndefined)]).
Proof. reflexivity. Qed.

Example ExpressMiddleware_next_undefined_later (handler : fn2) :
  ExpressMiddleware next_undefined_later handler sample_req sample_res (sample_heap "GET") =
    handler sample_req sample_res (sample_heap "GET" ++ [Prom (PFulfilled VUndefined)]).
Proof. reflexivity. Qed.

(** ** The constructors, run *)

Lemma new_MethodNotAllowedError_default (h : heap) :
  new_MethodNotAllowedError None h =
    (Returned (VRef (List.length h)), h ++ [MethodNotAllowed_instance]).
Proof. reflexivity. Qed.

Lemma new_BadRequestError_run (message : option string) (errors : value) (h : heap) :
  new_BadRequestError message errors h =
    (Returned (VRef (List.length h)),
     h ++ [BadRequest_instance (default "Bad Request" message) errors]).
Proof. reflexivity. Qed.

Lemma new_ServerInternalError_run (message : option string) (addition : list value)
    (h : heap) :
  new_ServerInternalError message addition h =
    (Returned (VRef (S (List.length h))),
     h ++ [Arr addition;
           ServerInternal_instance (default "Server Internal Error" message)
                                   (VRef (List.length h))]).
Proof.
  unfold new_ServerInternalError, bind. rewrite alloc_run, alloc_run.
  rewrite length_app, <- app_assoc. simpl.
  by replace (List.length h + 1) with (S (List.length h)) by lia.
Qed.

Lemma new_BaseError_run (message : string) (h : heap) :
  new_BaseError message h =
    (Returned (VRef (List.length h)), h ++ [BaseError_instance message]).
Proof. reflexivity. Qed.

(** ** Schema validators *)

Section ValidatorProperties.

Variable ajv : Ajv.

Lemma QuerySchema_run (schema : value) (customAjv : option Ajv) (handler : fn2)
    (req res : value) (h h1 h2 : heap) (compiled : value -> M value) (validate : value) :
  nullish req = false ->
  ajv_compile (default ajv customAjv) schema h = (Returned compiled, h1) ->
  compiled (read_prop h1 req "query") h1 = (Returned validate, h2) ->
  QuerySchema ajv schema customAjv handler req res h =
    if truthy validate
    then handler req res h2
    else (Thrown (VRef (List.length h2)),
          h2 ++ [BadRequest_instance "Bad Request"
                   (read_prop h2 (VRef (ajv_object (default ajv customAjv))) "errors")]).
Proof.
  intros Hreq Hc Hv. unfold QuerySchema, bind. rewrite Hc.
  rewrite get_prop_defined by done. rewrite Hv.
  destruct (truthy validate); [done |]. cbv [negb].
  by rewrite get_prop_defined.
Qed.

Lemma BodySchema_run (schema : value) (customAjv : option Ajv) (handler : fn2)
    (req res : value) (h h1 h2 : heap) (compiled : value -> M value) (validate : value) :
  nullish req = false ->
  ajv_compile (default ajv customAjv) schema h = (Returned compiled, h1) ->
  compiled (read_prop h1 req "body") h1 = (Returned validate, h2) ->
  BodySchema ajv schema customAjv handler req res h =
    if truthy validate
    then handler req res h2
    else (Thrown (VRef (List.length h2)),
          h2 ++ [BadRequest_instance "Bad Request"
                   (read_prop h2 (VRef (ajv_object (default ajv customAjv))) "errors")]).
Proof.
  intros Hreq Hc Hv. unfold BodySchema, bind. rewrite Hc.
  rewrite get_prop_defined by done. rewrite Hv.
  destruct (truthy validate); [done |]. cbv [negb].
  by rewrite get_prop_defined.
Qed.

Lemma ResponseSchema_run (schema : value) (customAjv : option Ajv) (handler : fn2)
    (req res : value) (h h1 h2 h3 : heap) (response : value)
    (compiled : value -> M value) (validate : value) :
  handler req res h = (Returned response, h1) ->
  ajv_compile (default ajv customAjv) schema h1 = (Returned compiled, h2) ->
  compiled response h2 = (Returned validate, h3) ->
  ResponseSchema ajv schema customAjv handler req res h =
    if truthy validate
    then (Returned response, h3)
    else (Thrown (VRef (S (List.length h3))),
          h3 ++ [Arr [read_prop h3 (VRef (ajv_object (default ajv customAjv))) "errors"];
                 ServerInternal_instance "Server Internal Error" (VRef (List.length h3))]).
Proof.
  intros Hh Hc Hv. unfold ResponseSchema, bind. rewrite Hh, Hc, Hv.
  destruct (truthy validate); [done |]. cbv [negb].
  rewrite get_prop_defined by done.
  by rewrite new_ServerInternalError_run.
Qed.

End ValidatorProperties.

Lemma request_schema_run (ajv : Ajv) (P : request_part) (schema : value)
    (customAjv : option Ajv) (handler : fn2) (req res : value) (h h1 h2 : heap)
    (compiled : value -> M value) (verdict : value) :
  nullish req = false ->
  ajv_compile (default ajv customAjv) schema h = (Returned compiled, h1) ->
  compiled (read_prop h1 req (part_name P)) h1 = (Returned verdict, h2) ->
  request_schema ajv P schema customAjv handler req res h =
    if truthy verdict
    then handler req res h2
    else (Thrown (VRef (List.length h2)),
          h2 ++ [BadRequest_instance "Bad Request"
                   (read_prop h2 (VRef (ajv_object (default ajv customAjv))) "errors")]).
Proof.
  destruct P; [apply QuerySchema_run | apply BodySchema_run].
Qed.

(** C7 fails on the source, in the detail of the error.  With the engine of
    the library, the schema [{type: 'object', required: ['ok']}] and a
    request whose query and body lack [ok], both validators do run the
    validation first and throw a [BadRequestError] (400) without running
    the handler; but the [errors] of that error is [null], read from the
    engine object, while the list of collected errors sits in the
    [errors] of the validating function that [compile] returned. *)
Theorem request_schemas_lose_error_list :
  (exists hq,
      QuerySchema library_engine sample_schema None answer_handler
                  sample_req sample_res schema_heap = (Thrown (VRef 10), hq) /\
      hq !! 10 = Some (BadRequest_instance "Bad Request" VNull) /\
      hq !! 7 = Some (Obj ["Function"; "Object"] [("errors", VRef 9)]) /\
      hq !! 9 = Some (Arr [VRef 8]) /\
      hq !! 8 = Some (missing_report "ok")) /\
  (exists hb,
      BodySchema library_engine sample_schema None answer_handler
                 sample_req sample_res schema_heap = (Thrown (VRef 10), hb) /\
      hb !! 10 = Some (BadRequest_instance "Bad Request" VNull) /\
      hb !! 7 = Some (Obj ["Function"; "Object"] [("errors", VRef 9)]) /\
      hb !! 9 = Some (Arr [VRef 8]) /\
      hb !! 8 = Some (missing_report "ok")).
Proof. split; eexists; repeat split. Qed.

(** X17: [QuerySchema] (resp. [BodySchema]) compiles the schema and runs
    the validating function on [req.query] (resp. [req.body]) before
    anything else.  If the verdict is falsy, the wrapper throws a fresh
    [BadRequestError] (message 'Bad Request', [statusCode] 400) whose
    [errors] is what the [errors] property of the engine object holds at
    that moment, whatever the inner handler is; if the verdict is truthy,
    the wrapper is the inner handler run on the same request and response
    from the heap the validation left. *)
Theorem request_schema_validates_first (ajv : Ajv) (P : request_part) (schema : value)
    (customAjv : option Ajv) (req res : value) (h h1 h2 : heap)
    (compiled : value -> M value) (verdict : value) :
  nullish req = false ->
  ajv_compile (default ajv customAjv) schema h = (Returned compiled, h1) ->
  compiled (read_prop h1 req (part_name P)) h1 = (Returned verdict, h2) ->
  forall handler : fn2,
    request_schema ajv P schema customAjv handler req res h =
      if truthy verdict
      then handler req res h2
      else (Thrown (VRef (List.length h2)),
            h2 ++ [Obj ("BadRequestError" :: BaseError_chain)
                       [("message", VStr "Bad Request");
                        ("name", VStr "BadRequestError");
                        ("statusCode", VNum 400);
                        ("errors",
                         read_prop h2 (VRef (ajv_object (default ajv customAjv))) "errors")]]).
Proof. intros Hreq Hc Hv handler. by apply request_schema_run with h1 compiled. Qed.

Lemma request_schema_validates_first_witness :
  BodySchema library_engine sample_schema None answer_handler
             sample_req sample_res schema_heap =
    (Thrown (VRef 10),
     refused schema_heap "ok" ++
       [Obj ("BadRequestError" :: BaseError_chain)
            [("message", VStr "Bad Request");
             ("name", VStr "BadRequestError");
             ("statusCode", VNum 400);
             ("errors", VNull)]]).
Proof.
  apply (request_schema_validates_first library_engine BODY sample_schema None
           sample_req sample_res schema_heap
           (schema_heap ++ [Obj ["Function"; "Object"] [("errors", VNull)]])
           (refused schema_heap "ok")
           (library_validate 7 ["ok"]) (VBool false) eq_refl eq_refl eq_refl
           answer_handler).
Defined.

(** The other branch, run: an accepted request reaches the handler. *)
Example QuerySchema_accepted (handler : fn2) :
  QuerySchema accepting_engine VNull None handler sample_req sample_res (sample_heap "GET") =
    handler sample_req sample_res (sample_heap "GET").
Proof. reflexivity. Qed.

(** C8 (as amended): [ResponseSchema] runs the inner handler first, then
    compiles the schema and runs the validating function on the value the
    handler returned.  If the verdict is falsy the wrapper throws a fresh
    [ServerInternalError] ([statusCode] 500), leaving every object of the
    heap as the validation left it; if the verdict is truthy the wrapper
    returns the very value the handler returned (for an object, the same
    reference), and the heap is the one the validation left: the wrapper
    itself neither copies nor changes the result. *)
Theorem ResponseSchema_validates_result (ajv : Ajv) (schema : value)
    (customAjv : option Ajv) (handler : fn2) (req res : value) (h h1 h2 h3 : heap)
    (response : value) (compiled : value -> M value) (validate : value) :
  handler req res h = (Returned response, h1) ->
  ajv_compile (default ajv customAjv) schema h1 = (Returned compiled, h2) ->
  compiled response h2 = (Returned validate, h3) ->
  if truthy validate
  then ResponseSchema ajv schema customAjv handler req res h = (Returned response, h3)
  else exists (l : loc) (h' : heap),
      ResponseSchema ajv schema customAjv handler req res h = (Thrown (VRef l), h') /\
      h3 !! l = None /\
      (forall (l0 : loc) (o : obj), h3 !! l0 = Some o -> h' !! l0 = Some o) /\
      instanceof_Error h' (VRef l) = true /\
      read_prop h' (VRef l) "name" = VStr "ServerInternalError" /\
      read_prop h' (VRef l) "statusCode" = VNum 500.
Proof.
  intros Hh Hc Hv. rewrite (ResponseSchema_run ajv _ _ _ _ _ _ _ _ _ _ _ _ Hh Hc Hv).
  destruct (truthy validate); [done |].
  eexists _, _. split; [done |].
  split; [apply lookup_ge_None; lia |].
  split; [intros l0 o Hl0; by apply lookup_app_l_Some |].
  unfold instanceof_Error, read_prop. by rewrite lookup_alloc2.
Qed.

Lemma ResponseSchema_validates_result_witness :
  ResponseSchema accepting_engine VNull None answer_handler
                 sample_req sample_res (sample_heap "GET") =
    (Returned (VRef 5),
     sample_heap "GET" ++ [Obj ["Object"] [("some", VStr "answer")]]).
Proof.
  apply (ResponseSchema_validates_result accepting_engine VNull None answer_handler
           sample_req sample_res (sample_heap "GET")
           (sample_heap "GET" ++ [Obj ["Object"] [("some", VStr "answer")]])
           (sample_heap "GET" ++ [Obj ["Object"] [("some", VStr "answer")]])
           (sample_heap "GET" ++ [Obj ["Object"] [("some", VStr "answer")]])
           (VRef 5) accepting_validate (VBool true));
    reflexivity.
Defined.

(** C8 (as stated) fails: the handler returns the empty object at 5; the
    engine's validating function accepts it after writing a default into
    it; the wrapper returns the same reference, and the object it
    denotes is no longer the one the handler returned. *)
Lemma ResponseSchema_returns_validator_modified_object :
  exists h1 h3 : heap,
    empty_handler sample_req sample_res (sample_heap "GET") = (Returned (VRef 5), h1) /\
    h1 !! 5 = Some (Obj ["Object"] []) /\
    ResponseSchema accepting_engine VNull (Some defaulting_engine) empty_handler
                   sample_req sample_res (sample_heap "GET") = (Returned (VRef 5), h3) /\
    h3 !! 5 = Some (Obj ["Object"] [("ok", VBool true)]) /\
    h3 !! 5 <> h1 !! 5.
Proof.
  exists (sample_heap "GET" ++ [Obj ["Object"] []]),
         (sample_heap "GET" ++ [Obj ["Object"] [("ok", VBool true)]]).
  repeat split; discriminate.
Qed.

(** X18: [new ServerInternalError(message, ...addition)] stores in its
    [addition] property a fresh array that holds exactly the arguments
    after the message, in order (the empty array when there are none),
    never one of the arguments itself. *)
Theorem ServerInternalError_collects_rest_arguments (message : option string)
    (addition : list value) (h0 : heap) :
  exists (a : loc) (e : value) (h' : heap),
    new_ServerInternalError message addition h0 = (Returned e, h') /\
    read_prop h' e "addition" = VRef a /\
    h' !! a = Some (Arr addition) /\
    h0 !! a = None.
Proof.
  exists (List.length h0). eexists _, _.
  split; [apply new_ServerInternalError_run |].
  split; [unfold read_prop; by rewrite lookup_alloc2 |].
  split; [by apply list_lookup_middle | by apply lookup_ge_None].
Qed.

(** C10 fails on the source, in the element of the array.  On the
    specification's example (schema [{type: 'object', required: ['ok']}],
    a handler returning [{}], the engine of the library) the error that
    [ResponseSchema] throws has for [addition] a fresh array of length
    one, as the claim says, but its only element is [null], read from the
    engine object; the list of collected errors sits in the [errors] of
    the validating function that [compile] returned. *)
Theorem ResponseSchema_addition_holds_null :
  exists h',
    ResponseSchema library_engine sample_schema None empty_handler
                   sample_req sample_res schema_heap = (Thrown (VRef 12), h') /\
    h' !! 12 = Some (ServerInternal_instance "Server Internal Error" (VRef 11)) /\
    h' !! 11 = Some (Arr [VNull]) /\
    h' !! 8 = Some (Obj ["Function"; "Object"] [("errors", VRef 10)]) /\
    h' !! 10 = Some (Arr [VRef 9]) /\
    h' !! 9 = Some (missing_report "ok").
Proof. eexists. repeat split. Qed.

(** ** Default messages *)

Lemma read_prop_alloc (h : heap) (chain : list string) (ps : list (string * value))
    (k : string) :
  read_prop (h ++ [Obj chain ps]) (VRef (List.length h)) k = lookup_prop k ps.
Proof. unfold read_prop. by rewrite lookup_alloc. Qed.

(** C9: constructed without a message, a [MethodNotAllowedError] has the
    message 'Method not allowed', a [BadRequestError] 'Bad Request' and a
    [ServerInternalError] 'Server Internal Error'; a [BaseError] takes its
    message as a required argument and has exactly that message.  Hence
    the error thrown by a guard that rejects a request has the message
    'Method not allowed'. *)
Theorem default_error_messages (V : verb) (l : loc) (res : value) (h : heap)
    (chain : list string) (ps : list (string * value)) (m : string) :
  h !! l = Some (Obj chain ps) ->
  lookup_prop "method" ps = VStr m ->
  String.eqb m (verb_name V) = false ->
  (forall h0 : heap, exists e h',
      new_MethodNotAllowedError None h0 = (Returned e, h') /\
      read_prop h' e "message" = VStr "Method not allowed") /\
  (forall (errors : value) (h0 : heap), exists e h',
      new_BadRequestError None errors h0 = (Returned e, h') /\
      read_prop h' e "message" = VStr "Bad Request") /\
  (forall (addition : list value) (h0 : heap), exists e h',
      new_ServerInternalError None addition h0 = (Returned e, h') /\
      read_prop h' e "message" = VStr "Server Internal Error") /\
  (forall (message : string) (h0 : heap), exists e h',
      new_BaseError message h0 = (Returned e, h') /\
      read_prop h' e "message" = VStr message) /\
  (forall handler : fn2, exists e h',
      guard V handler (VRef l) res h = (Thrown e, h') /\
      read_prop h' e "message" = VStr "Method not allowed").
Proof.
  intros Hl Hm Hne. repeat split.
  - intros h0. eexists _, _. split; [apply new_MethodNotAllowedError_default |].
    apply read_prop_alloc.
  - intros errors h0. eexists _, _. split; [apply new_BadRequestError_run |].
    apply read_prop_alloc.
  - intros addition h0. eexists _, _. split; [apply new_ServerInternalError_run |].
    unfold read_prop.
    replace (S (List.length h0)) with (List.length (h0 ++ [Arr addition]))
      by (rewrite length_app; simpl; lia).
    rewrite (app_assoc h0 [Arr addition] [_] : h0 ++ [Arr addition; _] = _).
    by rewrite lookup_alloc.
  - intros message h0. eexists _, _. split; [apply new_BaseError_run |].
    apply read_prop_alloc.
  - intros handler. eexists _, _. split; [by eapply guard_reject |].
    apply read_prop_alloc.
Qed.

Lemma default_error_messages_witness :
  (forall h0 : heap, exists e h',
      new_MethodNotAllowedError None h0 = (Returned e, h') /\
      read_prop h' e "message" = VStr "Method not allowed") /\
  (forall (errors : value) (h0 : heap), exists e h',
      new_BadRequestError None errors h0 = (Returned e, h') /\
      read_prop h' e "message" = VStr "Bad Request") /\
  (forall (addition : list value) (h0 : heap), exists e h',
      new_ServerInternalError None addition h0 = (Returned e, h') /\
      read_prop h' e "message" = VStr "Server Internal Error") /\
  (forall (message : string) (h0 : heap), exists e h',
      new_BaseError message h0 = (Returned e, h') /\
      read_prop h' e "message" = VStr message) /\
  (forall handler : fn2, exists e h',
      guard PUT handler sample_req sample_res (sample_heap "PATCH") = (Thrown e, h') /\
      read_prop h' e "message" = VStr "Method not allowed").
Proof.
  apply (default_error_messages PUT 0 sample_res (sample_heap "PATCH")
           ["IncomingMessage"; "Object"]
           [("method", VStr "PATCH"); ("query", VRef 2); ("body", VRef 3)] "PATCH");
    reflexivity.
Defined.

(** ** Handler wrapper *)

(** C4 (as amended): [Request] runs the handler to its settlement.  If the
    handler returns, the wrapper sends the returned value with
    [res.json].  If the handler throws a value that is neither [null] nor
    [undefined], the error handler installed by [ErrorHandler] first sets
    the response status to the error's [statusCode], or to 500 when that
    is missing or falsy, then runs the controller's method in the heap
    where the status is set, then sends what the method returns with
    [res.json].  (A thrown [null] or [undefined] makes the error handler
    fail with a [TypeError] before it touches the response.)  If the
    handler never settles, neither does the wrapper. *)
Theorem Request_serializes_result_or_error (method : fn3) (t_constructor : controller)
    (handler : fn2) (req : value) (r : loc) (h h1 : heap) (o : outcome value)
    (sc : value) (sent : list value) :
  handler req (VRef r) h = (o, h1) ->
  h1 !! r = Some (Res sc sent) ->
  Request (ErrorHandler method t_constructor) handler req (VRef r) h =
    match o with
    | Returned result =>
        (Returned VUndefined, <[r := Res sc (sent ++ [result])]> h1)
    | Thrown error =>
        if nullish error
        then throw_TypeError
               "Cannot read properties of undefined or null: statusCode" h1
        else
          let statusCode := read_prop h1 error "statusCode" in
          let code := if truthy statusCode then statusCode else VNum 500 in
          (let! response := method error (VRef r) (VRef r) in
           res_json (VRef r) response) (<[r := Res code sent]> h1)
    | Pending => (Pending, h1)
    end.
Proof.
  intros Hh Hr. unfold Request, try_catch, bind. rewrite Hh.
  destruct o as [result | error |]; [| | done].
  - unfold res_json. by rewrite Hr.
  - unfold call_errorHandler, ErrorHandler. cbn [errorHandler]. unfold bind.
    rewrite (get_prop_defined h1 (VRef r)) by done.
    unfold get_prop. destruct (nullish error) eqn:Hn; [done |].
    destruct (truthy (read_prop h1 error "statusCode")).
    + unfold res_status. by rewrite Hr.
    + unfold ret, res_status. by rewrite Hr.
Qed.

Lemma Request_serializes_result_or_error_witness :
  Request echo_controller (Get answer_handler) sample_req sample_res (sample_heap "POST") =
    (Returned VUndefined,
     <[1 := Res (VNum 405) [VRef 1]]> (sample_heap "POST") ++ [MethodNotAllowed_instance]).
Proof.
  apply (Request_serializes_result_or_error echo_req no_errorHandler (Get answer_handler)
           sample_req 1 (sample_heap "POST")
           (sample_heap "POST" ++ [MethodNotAllowed_instance])
           (Thrown (VRef 5)) (VNum 200) []);
    reflexivity.
Defined.

(** The success path, run. *)
Example Request_success :
  Request echo_controller (Get answer_handler) sample_req sample_res (sample_heap "GET") =
    (Returned VUndefined,
     <[1 := Res (VNum 200) [VRef 5]]> (sample_heap "GET") ++
       [Obj ["Object"] [("some", VStr "answer")]]).
Proof. reflexivity. Qed.

(** C4 (as stated) fails: the handler throws [null]; the error handler
    fails on reading [statusCode], so the status is not set, the
    controller's method is not run and nothing is sent: the response is
    as it was, and the wrapper throws the [TypeError]. *)
Lemma Request_thrown_null_sets_no_status :
  exists h',
    Request echo_controller null_handler sample_req sample_res (sample_heap "GET") =
      (Thrown (VRef 5), h') /\
    h' !! 1 = Some (Res (VNum 200) []) /\
    instanceof_Error h' (VRef 5) = true /\
    h' !! 5 = Some (Obj TypeError_chain
                        [("message",
                          VStr "Cannot read properties of undefined or null: statusCode")]).
Proof. eexists. repeat split. Qed.

(** C1 fails on the source: the handler throws a [BaseError]; the
    controller's error handler answers with the object it received as
    its request; the body sent is the response object (at 1), not the
    request (at 0): the wrapper passes [res] in the place of [req]. *)
Theorem Request_passes_response_as_request :
  Request echo_controller failing_handler sample_req sample_res (sample_heap "GET") =
    (Returned VUndefined,
     <[1 := Res (VNum 500) [sample_res]]> (sample_heap "GET") ++ [BaseError_instance "boom"])
  /\ sample_res <> sample_req.
Proof. split; [reflexivity | discriminate]. Qed.

(** In general: whatever the handler throws is handed to the class-level
    error handler once, with the response in both object positions. *)
Lemma Request_error_path (t_constructor : controller) (handler : fn2) (req res : value)
    (h h1 : heap) (e : value) :
  handler req res h = (Thrown e, h1) ->
  Request t_constructor handler req res h = call_errorHandler t_constructor e res res h1.
Proof. intros Hh. unfold Request, try_catch, bind. by rewrite Hh. Qed.

(** * Further properties of the decorators *)

(** ** Guards *)

Lemma strict_neq_VStr (v : value) (s : string) :
  v <> VStr s -> strict_neq v (VStr s) = true.
Proof.
  intros Hv. destruct v; try reflexivity. simpl.
  destruct (String.eqb s0 s) eqn:He; [| done].
  apply String.eqb_eq in He. by subst.
Qed.

Lemma verb_name_inj (V W : verb) : verb_name V = verb_name W -> V = W.
Proof. by destruct V, W. Qed.

Lemma strict_neq_VStr_false (v : value) (s : string) :
  strict_neq v (VStr s) = false -> v = VStr s.
Proof.
  destruct v; try discriminate. simpl. intros He.
  apply negb_false_iff, String.eqb_eq in He. by subst.
Qed.

Lemma guard_reject_value (V : verb) (handler : fn2) (l : loc) (res : value) (h : heap)
    (chain : list string) (ps : list (string * value)) :
  h !! l = Some (Obj chain ps) ->
  lookup_prop "method" ps <> VStr (verb_name V) ->
  guard V handler (VRef l) res h =
    (Thrown (VRef (List.length h)), h ++ [MethodNotAllowed_instance]).
Proof.
  intros Hl Hm. rewrite guard_unfold. unfold bind.
  rewrite (get_prop_object h l chain ps) by done.
  by rewrite strict_neq_VStr.
Qed.

Lemma guard_pass (V : verb) (handler : fn2) (l : loc) (res : value) (h : heap)
    (chain : list string) (ps : list (string * value)) :
  h !! l = Some (Obj chain ps) ->
  lookup_prop "method" ps = VStr (verb_name V) ->
  guard V handler (VRef l) res h = handler (VRef l) res h.
Proof.
  intros Hl Hm. rewrite guard_unfold. unfold bind.
  rewrite (get_prop_object h l chain ps) by done.
  rewrite Hm. simpl. by rewrite String.eqb_refl.
Qed.

(** X1: a guard lets a request through only if its [method] is exactly
    the guard's verb: a request object whose [method] is any other value
    (a different string, or no [method] at all) is rejected with a fresh
    [MethodNotAllowedError], whatever the inner handler is. *)
Theorem guard_rejects_every_other_value (V : verb) (handler : fn2) (l : loc)
    (res : value) (h : heap) (chain : list string) (ps : list (string * value)) :
  h !! l = Some (Obj chain ps) ->
  lookup_prop "method" ps <> VStr (verb_name V) ->
  guard V handler (VRef l) res h =
    (Thrown (VRef (List.length h)), h ++ [MethodNotAllowed_instance]).
Proof. intros Hl Hm. by eapply guard_reject_value. Qed.

Lemma guard_rejects_every_other_value_witness :
  guard HEAD answer_handler (VRef 0) (VRef 1) bare_heap =
    (Thrown (VRef 2), bare_heap ++ [MethodNotAllowed_instance]).
Proof.
  apply (guard_rejects_every_other_value HEAD answer_handler 0 (VRef 1) bare_heap
           ["IncomingMessage"; "Object"] [] eq_refl).
  simpl. discriminate.
Defined.

(** X2: applying the same guard twice is the same as applying it once, on
    every request, response and heap. *)
Theorem guard_idempotent (V : verb) (handler : fn2) (req res : value) (h : heap) :
  guard V (guard V handler) req res h = guard V handler req res h.
Proof.
  rewrite (guard_unfold V (guard V handler)).
  unfold bind at 1. unfold get_prop at 1.
  destruct (nullish req) eqn:Hn.
  - rewrite guard_unfold. unfold bind, get_prop. by rewrite Hn.
  - destruct (strict_neq (read_prop h req "method") (VStr (verb_name V))) eqn:Hs; [| done].
    rewrite guard_unfold. unfold bind, get_prop. by rewrite Hn, Hs.
Qed.

(** X3: two guards for different verbs, stacked, reject every request: the
    result is a fresh [MethodNotAllowedError] whatever the request's
    [method] and whatever the inner handler. *)
Theorem distinct_guards_reject_every_request (V W : verb) (handler : fn2) (l : loc)
    (res : value) (h : heap) (chain : list string) (ps : list (string * value)) :
  V <> W ->
  h !! l = Some (Obj chain ps) ->
  guard V (guard W handler) (VRef l) res h =
    (Thrown (VRef (List.length h)), h ++ [MethodNotAllowed_instance]).
Proof.
  intros HVW Hl.
  destruct (strict_neq (lookup_prop "method" ps) (VStr (verb_name V))) eqn:Hs.
  - apply guard_reject_value with chain ps; [done |].
    intros Hm. rewrite Hm in Hs. simpl in Hs. by rewrite String.eqb_refl in Hs.
  - apply strict_neq_VStr_false in Hs.
    rewrite (guard_pass V _ l res h chain ps) by done.
    apply guard_reject_value with chain ps; [done |].
    rewrite Hs. intros [= Heq]. by apply verb_name_inj in Heq.
Qed.

Lemma distinct_guards_reject_every_request_witness :
  guard GET (guard POST answer_handler) sample_req sample_res (sample_heap "GET") =
    (Thrown (VRef 5), sample_heap "GET" ++ [MethodNotAllowed_instance]).
Proof.
  apply (distinct_guards_reject_every_request GET POST answer_handler 0 sample_res
           (sample_heap "GET") ["IncomingMessage"; "Object"]
           [("method", VStr "GET"); ("query", VRef 2); ("body", VRef 3)]
           ltac:(discriminate) eq_refl).
Defined.

(** ** Error kinds *)

(** X4: every error kind of the library is an [Error] instance that keeps
    the message it is given (or its default) and has the status code and
    the name of its kind: 500 [BaseError], 405 [MethodNotAllowedError],
    400 [BadRequestError] (with the [errors] it is given), 500
    [ServerInternalError]; the values set by the base constructor do not
    survive in a subclass instance. *)
Theorem error_kinds_fix_status_and_name (message : option string) (m : string)
    (errors : value) (addition : list value) (h : heap) :
  (exists e h',
      new_BaseError m h = (Returned e, h') /\
      instanceof_Error h' e = true /\
      read_prop h' e "message" = VStr m /\
      read_prop h' e "statusCode" = VNum 500 /\
      read_prop h' e "name" = VStr "BaseError") /\
  (exists e h',
      new_MethodNotAllowedError message h = (Returned e, h') /\
      instanceof_Error h' e = true /\
      read_prop h' e "message" = VStr (default "Method not allowed" message) /\
      read_prop h' e "statusCode" = VNum 405 /\
      read_prop h' e "name" = VStr "MethodNotAllowedError") /\
  (exists e h',
      new_BadRequestError message errors h = (Returned e, h') /\
      instanceof_Error h' e = true /\
      read_prop h' e "message" = VStr (default "Bad Request" message) /\
      read_prop h' e "statusCode" = VNum 400 /\
      read_prop h' e "name" = VStr "BadRequestError" /\
      read_prop h' e "errors" = errors) /\
  (exists e h',
      new_ServerInternalError message addition h = (Returned e, h') /\
      instanceof_Error h' e = true /\
      read_prop h' e "message" = VStr (default "Server Internal Error" message) /\
      read_prop h' e "statusCode" = VNum 500 /\
      read_prop h' e "name" = VStr "ServerInternalError").
Proof.
  repeat split.
  - eexists _, _. split; [apply new_BaseError_run |].
    unfold instanceof_Error, read_prop. by rewrite lookup_alloc.
  - eexists _, _. split; [reflexivity |].
    unfold instanceof_Error, read_prop. by rewrite lookup_alloc.
  - eexists _, _. split; [apply new_BadRequestError_run |].
    unfold instanceof_Error, read_prop. by rewrite lookup_alloc.
  - eexists _, _. split; [apply new_ServerInternalError_run |].
    unfold instanceof_Error, read_prop. by rewrite lookup_alloc2.
Qed.

(** ** Handler wrapper *)

(** The function that [ErrorHandler] installs, run on an error that is
    neither [null] nor [undefined] and on a response object. *)
Lemma ErrorHandler_run (method : fn3) (t_constructor : controller) (error req : value)
    (r : loc) (h : heap) (sc : value) (sent : list value) :
  nullish error = false ->
  h !! r = Some (Res sc sent) ->
  call_errorHandler (ErrorHandler method t_constructor) error req (VRef r) h =
    (let! response := method error req (VRef r) in res_json (VRef r) response)
      (<[r := Res (if truthy (read_prop h error "statusCode")
                   then read_prop h error "statusCode" else VNum 500) sent]> h).
Proof.
  intros Hn Hr. unfold call_errorHandler, ErrorHandler. cbn [errorHandler]. unfold bind.
  rewrite (get_prop_defined h (VRef r)) by done.
  rewrite (get_prop_defined h error) by done.
  destruct (truthy (read_prop h error "statusCode")).
  - rewrite (get_prop_defined h error) by done. unfold res_status. by rewrite Hr.
  - unfold ret, res_status. by rewrite Hr.
Qed.

(** X5: on a controller without an error handler, a handler's failure is
    not reported: the wrapper throws a fresh [TypeError] in place of the
    error the handler threw, and writes nothing to the response (the heap
    is the handler's, extended by the [TypeError] alone). *)
Theorem Request_without_errorHandler (t_constructor : controller) (handler : fn2)
    (req res : value) (h h1 : heap) (e : value) :
  errorHandler t_constructor = None ->
  handler req res h = (Thrown e, h1) ->
  Request t_constructor handler req res h =
    (Thrown (VRef (List.length h1)),
     h1 ++ [Obj TypeError_chain
                [("message", VStr "t.constructor.errorHandler is not a function")]]).
Proof.
  intros Ht Hh. rewrite (Request_error_path _ _ _ _ _ _ _ Hh).
  unfold call_errorHandler. by rewrite Ht.
Qed.

Lemma Request_without_errorHandler_witness :
  Request no_errorHandler failing_handler sample_req sample_res (sample_heap "GET") =
    (Thrown (VRef 6),
     (sample_heap "GET" ++ [BaseError_instance "boom"]) ++
       [Obj TypeError_chain
            [("message", VStr "t.constructor.errorHandler is not a function")]]).
Proof.
  apply (Request_without_errorHandler no_errorHandler failing_handler sample_req sample_res
           (sample_heap "GET") (sample_heap "GET" ++ [BaseError_instance "boom"]) (VRef 5)
           eq_refl eq_refl).
Defined.

(** X6: if the controller's error-handling method itself throws, the
    wrapper throws what the method threw: the status has been set from
    the first error, and the wrapper sends no body. *)
Theorem Request_errorHandler_failure_propagates (method : fn3) (t_constructor : controller)
    (handler : fn2) (req : value) (r : loc) (h h1 h3 : heap) (e e' sc : value)
    (sent : list value) :
  handler req (VRef r) h = (Thrown e, h1) ->
  nullish e = false ->
  h1 !! r = Some (Res sc sent) ->
  method e (VRef r) (VRef r)
    (<[r := Res (if truthy (read_prop h1 e "statusCode")
                 then read_prop h1 e "statusCode" else VNum 500) sent]> h1) = (Thrown e', h3) ->
  Request (ErrorHandler method t_constructor) handler req (VRef r) h = (Thrown e', h3).
Proof.
  intros Hh Hn Hr Hm. rewrite (Request_error_path _ _ _ _ _ _ _ Hh).
  rewrite (ErrorHandler_run _ _ _ _ _ _ _ _ Hn Hr). unfold bind. by rewrite Hm.
Qed.

Lemma Request_errorHandler_failure_propagates_witness :
  Request (ErrorHandler failing_errorHandler no_errorHandler) failing_handler
          sample_req sample_res (sample_heap "GET") =
    (Thrown (VRef 6),
     (<[1 := Res (VNum 500) []]> (sample_heap "GET" ++ [BaseError_instance "boom"])) ++
       [Obj Error_chain [("message", VStr "handler")]]).
Proof.
  apply (Request_errorHandler_failure_propagates failing_errorHandler no_errorHandler
           failing_handler sample_req 1 (sample_heap "GET")
           (sample_heap "GET" ++ [BaseError_instance "boom"])
           ((<[1 := Res (VNum 500) []]> (sample_heap "GET" ++ [BaseError_instance "boom"])) ++
              [Obj Error_chain [("message", VStr "handler")]])
           (VRef 5) (VRef 6) (VNum 200) []);
    reflexivity.
Defined.

(** ** The wrapper around the other decorators *)

Lemma lookup_alloc_old (h : heap) (o x : obj) (l : loc) :
  h !! l = Some o -> (h ++ [x]) !! l = Some o.
Proof. intros Hl. by apply lookup_app_l_Some. Qed.

(** What the wrapper does with a fresh error object thrown by the
    decorator beneath it. *)
Lemma Request_reports_fresh_error (method : fn3) (t_constructor : controller)
    (inner : fn2) (req : value) (r : loc) (h h1 : heap) (chain : list string)
    (ps : list (string * value)) (sc : value) (sent : list value) :
  inner req (VRef r) h = (Thrown (VRef (List.length h1)), h1 ++ [Obj chain ps]) ->
  h1 !! r = Some (Res sc sent) ->
  Request (ErrorHandler method t_constructor) inner req (VRef r) h =
    (let! response := method (VRef (List.length h1)) (VRef r) (VRef r) in
     res_json (VRef r) response)
      (<[r := Res (if truthy (lookup_prop "statusCode" ps)
                   then lookup_prop "statusCode" ps else VNum 500) sent]>
         (h1 ++ [Obj chain ps])).
Proof.
  intros Hi Hr. rewrite (Request_error_path _ _ _ _ _ _ _ Hi).
  rewrite (ErrorHandler_run method t_constructor _ _ r _ sc sent);
    [| done | by apply lookup_alloc_old].
  by rewrite read_prop_alloc.
Qed.

(** X8: under the wrapper, a guard's rejection becomes a 405 response: the
    status of the response is set to 405, the controller's error method
    is run on the fresh [MethodNotAllowedError] and its result is sent;
    the inner handler plays no part. *)
Theorem Request_guard_rejection_is_405 (method : fn3) (t_constructor : controller)
    (V : verb) (handler : fn2) (l r : loc) (h : heap) (chain : list string)
    (ps : list (string * value)) (sc : value) (sent : list value) :
  h !! l = Some (Obj chain ps) ->
  lookup_prop "method" ps <> VStr (verb_name V) ->
  h !! r = Some (Res sc sent) ->
  Request (ErrorHandler method t_constructor) (guard V handler) (VRef l) (VRef r) h =
    (let! response := method (VRef (List.length h)) (VRef r) (VRef r) in
     res_json (VRef r) response)
      (<[r := Res (VNum 405) sent]> (h ++ [MethodNotAllowed_instance])).
Proof.
  intros Hl Hm Hr.
  by rewrite (Request_reports_fresh_error method t_constructor (guard V handler) (VRef l)
                r h h MethodNotAllowedError_chain _ sc sent
                (guard_reject_value V handler l (VRef r) h chain ps Hl Hm) Hr).
Qed.

Lemma Request_guard_rejection_is_405_witness :
  Request (ErrorHandler echo_req no_errorHandler) (guard DELETE answer_handler)
          (VRef 0) (VRef 1) bare_heap =
    (Returned VUndefined,
     <[1 := Res (VNum 405) [VRef 1]]> (bare_heap ++ [MethodNotAllowed_instance])).
Proof.
  apply (Request_guard_rejection_is_405 echo_req no_errorHandler DELETE answer_handler
           0 1 bare_heap ["IncomingMessage"; "Object"] [] (VNum 200) [] eq_refl
           ltac:(simpl; discriminate) eq_refl).
Defined.

(** X9: under the wrapper, a request that fails [QuerySchema], or one
    that fails [BodySchema], becomes a 400 response: the status is set to
    400, the controller's error method is run on the fresh
    [BadRequestError] and its result is sent; the inner handler plays no
    part. *)
Theorem Request_invalid_request_is_400 (method : fn3) (t_constructor : controller)
    (ajv : Ajv) (P : request_part) (schema : value) (customAjv : option Ajv)
    (handler : fn2) (req : value) (r : loc) (h h1 h2 : heap)
    (compiled : value -> M value) (verdict sc : value) (sent : list value) :
  nullish req = false ->
  ajv_compile (default ajv customAjv) schema h = (Returned compiled, h1) ->
  compiled (read_prop h1 req (part_name P)) h1 = (Returned verdict, h2) ->
  truthy verdict = false ->
  h2 !! r = Some (Res sc sent) ->
  Request (ErrorHandler method t_constructor)
          (request_schema ajv P schema customAjv handler) req (VRef r) h =
    (let! response := method (VRef (List.length h2)) (VRef r) (VRef r) in
     res_json (VRef r) response)
      (<[r := Res (VNum 400) sent]>
         (h2 ++ [BadRequest_instance "Bad Request"
                   (read_prop h2 (VRef (ajv_object (default ajv customAjv))) "errors")])).
Proof.
  intros Hreq Hc Hv Hfalse Hr.
  assert (Hi := request_schema_run ajv P schema customAjv handler req (VRef r) h h1 h2
                  compiled verdict Hreq Hc Hv).
  rewrite Hfalse in Hi.
  by rewrite (Request_reports_fresh_error method t_constructor _ req r h h2
                BadRequestError_chain _ sc sent Hi Hr).
Qed.

Lemma Request_invalid_request_is_400_witness :
  Request (ErrorHandler echo_req no_errorHandler)
          (QuerySchema library_engine sample_schema None answer_handler)
          sample_req sample_res schema_heap =
    (Returned VUndefined,
     <[1 := Res (VNum 400) [VRef 1]]>
       (refused schema_heap "ok" ++ [BadRequest_instance "Bad Request" VNull])).
Proof.
  apply (Request_invalid_request_is_400 echo_req no_errorHandler library_engine QUERY
           sample_schema None answer_handler sample_req 1 schema_heap
           (schema_heap ++ [Obj ["Function"; "Object"] [("errors", VNull)]])
           (refused schema_heap "ok")
           (library_validate 7 ["ok"]) (VBool false) (VNum 200) []
           eq_refl eq_refl eq_refl eq_refl eq_refl).
Defined.

(** X10: under the wrapper, a result that fails [ResponseSchema] becomes a
    500 response: the handler has run to completion and its effects on
    the heap stay, the status is set to 500, the controller's error
    method is run on the fresh [ServerInternalError] and its result is
    sent in place of the handler's. *)
Theorem Request_invalid_result_is_500 (method : fn3) (t_constructor : controller)
    (ajv : Ajv) (schema : value) (customAjv : option Ajv) (handler : fn2)
    (req : value) (r : loc) (h h1 h2 h3 : heap) (response : value)
    (compiled : value -> M value) (validate sc : value) (sent : list value) :
  handler req (VRef r) h = (Returned response, h1) ->
  ajv_compile (default ajv customAjv) schema h1 = (Returned compiled, h2) ->
  compiled response h2 = (Returned validate, h3) ->
  truthy validate = false ->
  h3 !! r = Some (Res sc sent) ->
  Request (ErrorHandler method t_constructor) (ResponseSchema ajv schema customAjv handler)
          req (VRef r) h =
    (let! body := method (VRef (S (List.length h3))) (VRef r) (VRef r) in
     res_json (VRef r) body)
      (<[r := Res (VNum 500) sent]>
         (h3 ++ [Arr [read_prop h3 (VRef (ajv_object (default ajv customAjv))) "errors"];
                 ServerInternal_instance "Server Internal Error" (VRef (List.length h3))])).
Proof.
  intros Hh Hc Hv Hfalse Hr.
  assert (Hi := ResponseSchema_run ajv schema customAjv handler req (VRef r) h h1 h2 h3
                  response compiled validate Hh Hc Hv).
  rewrite Hfalse in Hi.
  set (errors := read_prop h3 _ "errors") in *.
  assert (Hr' : (h3 ++ [Arr [errors]]) !! r = Some (Res sc sent))
    by by apply lookup_alloc_old.
  replace (S (List.length h3)) with (List.length (h3 ++ [Arr [errors]])) in *
    by (rewrite length_app; simpl; lia).
  rewrite (app_assoc h3 [Arr [errors]] [_] : h3 ++ [Arr [errors]; _] = _) in *.
  by rewrite (Request_reports_fresh_error method t_constructor _ req r h _
                ServerInternalError_chain _ sc sent Hi Hr').
Qed.

Lemma Request_invalid_result_is_500_witness :
  Request (ErrorHandler echo_req no_errorHandler)
          (ResponseSchema accepting_engine VNull (Some rejecting_engine) empty_handler)
          sample_req sample_res (sample_heap "GET") =
    (Returned VUndefined,
     <[1 := Res (VNum 500) [VRef 1]]>
       (rejected (sample_heap "GET" ++ [Obj ["Object"] []]) ++
          [Arr [VRef 7]; ServerInternal_instance "Server Internal Error" (VRef 8)])).
Proof.
  apply (Request_invalid_result_is_500 echo_req no_errorHandler accepting_engine VNull
           (Some rejecting_engine) empty_handler sample_req 1 (sample_heap "GET")
           (sample_heap "GET" ++ [Obj ["Object"] []])
           (sample_heap "GET" ++ [Obj ["Object"] []])
           (rejected (sample_heap "GET" ++ [Obj ["Object"] []]))
           (VRef 5) rejecting_validate (VBool false) (VNum 200) []);
    reflexivity.
Defined.

(** ** Continuation-style middleware *)

(** X11: if the callback throws before it has called [next], the wrapper
    throws what the callback threw (the promise is rejected with it), and
    the inner handler plays no part. *)
Theorem ExpressMiddleware_callback_failure (middleware : fn_next) (handler : fn2)
    (req res : value) (h h1 : heap) (e : value) :
  middleware req res (resolve_promise (List.length h)) (h ++ [Prom PPending]) = (Thrown e, h1) ->
  h1 !! List.length h = Some (Prom PPending) ->
  ExpressMiddleware middleware handler req res h =
    (Thrown e, <[List.length h := Prom (PRejected e)]> h1).
Proof.
  intros Hm Hp. unfold ExpressMiddleware, bind, new_Promise. cbv zeta. rewrite Hm.
  unfold reject_promise. cbv beta. rewrite Hp. cbn [fst snd]. simpl.
  rewrite list_lookup_insert_eq; [done |]. by eapply lookup_lt_Some.
Qed.

Lemma ExpressMiddleware_callback_failure_witness :
  ExpressMiddleware throwing_next answer_handler sample_req sample_res (sample_heap "GET") =
    (Thrown (VRef 6),
     sample_heap "GET" ++
       [Prom (PRejected (VRef 6)); Obj Error_chain [("message", VStr "z")]]).
Proof.
  apply (ExpressMiddleware_callback_failure throwing_next answer_handler sample_req
           sample_res (sample_heap "GET")
           (sample_heap "GET" ++ [Prom PPending; Obj Error_chain [("message", VStr "z")]])
           (VRef 6) eq_refl eq_refl).
Defined.

Lemma await_pending (p : loc) (k : later) (h : heap) :
  pending_throughout p k h = true -> await p k h = (Pending, after_turns k h).
Proof.
  revert h. induction k as [| turn rest IH]; intros h; simpl.
  - by destruct (h !! p) as [[| | | [| |]] |].
  - destruct (h !! p) as [[| | | [| |]] |]; try done. apply IH.
Qed.

(** X12: if [next] is never called, neither during the callback's call nor
    in any of the later turns the callback has arranged, the wrapper
    never settles: it neither returns nor throws, and the inner handler
    is not run. *)
Theorem ExpressMiddleware_without_next_hangs (middleware : fn_next) (handler : fn2)
    (req res : value) (h h1 : heap) (a : value) (k : later) :
  middleware req res (resolve_promise (List.length h)) (h ++ [Prom PPending]) =
    (Returned (a, k), h1) ->
  pending_throughout (List.length h) k h1 = true ->
  ExpressMiddleware middleware handler req res h = (Pending, after_turns k h1).
Proof.
  intros Hm Hp. unfold ExpressMiddleware, bind, new_Promise. cbv zeta. rewrite Hm.
  cbn [fst snd]. by rewrite (await_pending _ _ _ Hp).
Qed.

Lemma ExpressMiddleware_without_next_hangs_witness :
  ExpressMiddleware idle_next answer_handler sample_req sample_res (sample_heap "GET") =
    (Pending, sample_heap "GET" ++ [Prom PPending]).
Proof.
  apply (ExpressMiddleware_without_next_hangs idle_next answer_handler sample_req
           sample_res (sample_heap "GET") (sample_heap "GET" ++ [Prom PPending])
           VUndefined (Later (fun h => h) (fun _ => Done)) eq_refl eq_refl).
Defined.

(** X13: only the first call of [next] counts: a callback that calls
    [next(v)] and then [next(w)] makes the wrapper behave exactly as one
    that calls [next(v)] alone, so the inner handler runs at most once
    and a later [next(error)] is ignored. *)
Theorem ExpressMiddleware_first_next_wins (v w : value) (handler : fn2)
    (req res : value) (h : heap) :
  ExpressMiddleware (next_twice v w) handler req res h =
  ExpressMiddleware (next_once v) handler req res h.
Proof.
  assert (Hfirst : resolve_promise (List.length h) v (h ++ [Prom PPending]) =
                   (Returned VUndefined, <[List.length h := Prom (PFulfilled v)]> (h ++ [Prom PPending]))).
  { unfold resolve_promise. by rewrite lookup_alloc. }
  assert (Hp : <[List.length h := Prom (PFulfilled v)]> (h ++ [Prom PPending]) !! List.length h =
               Some (Prom (PFulfilled v))).
  { apply list_lookup_insert_eq. rewrite length_app. simpl. lia. }
  unfold ExpressMiddleware, bind, new_Promise, next_twice, next_once. cbv zeta.
  unfold bind. rewrite Hfirst.
  by rewrite (resolve_promise_settled _ v w _ Hp).
Qed.

(** ** Failures around the handler *)

(** X14: a schema that the engine refuses to compile is only discovered
    when a request arrives.  [QuerySchema] and [BodySchema] then throw the
    engine's error before the inner handler, whatever it is;
    [ResponseSchema] throws it only after the inner handler has run to
    completion, from the heap the handler left. *)
Theorem schema_compile_failure (ajv : Ajv) (schema : value) (customAjv : option Ajv)
    (handler : fn2) (req res : value) (h h1 h2 h3 : heap) (response e e' : value) :
  ajv_compile (default ajv customAjv) schema h = (Thrown e, h2) ->
  handler req res h = (Returned response, h1) ->
  ajv_compile (default ajv customAjv) schema h1 = (Thrown e', h3) ->
  (forall inner : fn2,
      QuerySchema ajv schema customAjv inner req res h = (Thrown e, h2) /\
      BodySchema ajv schema customAjv inner req res h = (Thrown e, h2)) /\
  ResponseSchema ajv schema customAjv handler req res h = (Thrown e', h3).
Proof.
  intros Hc Hh Hc'. split.
  - intros inner. unfold QuerySchema, BodySchema, bind. by rewrite Hc.
  - unfold ResponseSchema, bind. by rewrite Hh, Hc'.
Qed.

Lemma schema_compile_failure_witness :
  (forall inner : fn2,
      QuerySchema accepting_engine VNull (Some refusing_engine) inner
                  sample_req sample_res (sample_heap "GET") =
        (Thrown (VRef 5),
         sample_heap "GET" ++ [Obj Error_chain [("message", VStr "schema is invalid")]]) /\
      BodySchema accepting_engine VNull (Some refusing_engine) inner
                 sample_req sample_res (sample_heap "GET") =
        (Thrown (VRef 5),
         sample_heap "GET" ++ [Obj Error_chain [("message", VStr "schema is invalid")]])) /\
  ResponseSchema accepting_engine VNull (Some refusing_engine) answer_handler
                 sample_req sample_res (sample_heap "GET") =
    (Thrown (VRef 6),
     sample_heap "GET" ++
       [Obj ["Object"] [("some", VStr "answer")];
        Obj Error_chain [("message", VStr "schema is invalid")]]).
Proof.
  apply (schema_compile_failure accepting_engine VNull (Some refusing_engine)
           answer_handler sample_req sample_res (sample_heap "GET")
           (sample_heap "GET" ++ [Obj ["Object"] [("some", VStr "answer")]])
           (sample_heap "GET" ++ [Obj Error_chain [("message", VStr "schema is invalid")]])
           (sample_heap "GET" ++
              [Obj ["Object"] [("some", VStr "answer")];
               Obj Error_chain [("message", VStr "schema is invalid")]])
           (VRef 5) (VRef 5) (VRef 6) eq_refl eq_refl eq_refl).
Defined.

(** X15: under the wrapper, a value thrown by a [Middleware] callback that
    carries no truthy [statusCode] (a plain [Error], a string) becomes a
    500 response: the status is set to 500, the controller's error method
    is run on the very value the callback threw and its result is sent;
    the inner handler plays no part. *)
Theorem Request_middleware_failure_is_500 (method : fn3) (t_constructor : controller)
    (middleware handler : fn2) (req : value) (r : loc) (h h1 : heap) (e sc : value)
    (sent : list value) :
  middleware req (VRef r) h = (Thrown e, h1) ->
  nullish e = false ->
  truthy (read_prop h1 e "statusCode") = false ->
  h1 !! r = Some (Res sc sent) ->
  Request (ErrorHandler method t_constructor) (Middleware middleware handler)
          req (VRef r) h =
    (let! response := method e (VRef r) (VRef r) in res_json (VRef r) response)
      (<[r := Res (VNum 500) sent]> h1).
Proof.
  intros Hm Hn Hsc Hr.
  assert (Hi : Middleware middleware handler req (VRef r) h = (Thrown e, h1)).
  { unfold Middleware, bind. by rewrite Hm. }
  rewrite (Request_error_path _ _ _ _ _ _ _ Hi).
  rewrite (ErrorHandler_run _ _ _ _ _ _ _ _ Hn Hr). by rewrite Hsc.
Qed.

Lemma Request_middleware_failure_is_500_witness :
  Request (ErrorHandler echo_req no_errorHandler)
          (Middleware failing_middleware answer_handler)
          sample_req sample_res (sample_heap "GET") =
    (Returned VUndefined,
     <[1 := Res (VNum 500) [VRef 1]]>
       (sample_heap "GET" ++ [Obj Error_chain [("message", VStr "x")]])).
Proof.
  apply (Request_middleware_failure_is_500 echo_req no_errorHandler failing_middleware
           answer_handler sample_req 1 (sample_heap "GET")
           (sample_heap "GET" ++ [Obj Error_chain [("message", VStr "x")]])
           (VRef 5) (VNum 200) [] eq_refl eq_refl eq_refl eq_refl).
Defined.


